(** * The stdio launcher of mqtt-mcp

    A shallow embedding of [scrips/mqtt-mcp-stdio.py], the wrapper that runs
    the third-party [mqtt_mcp] server over the stdio transport, and the
    properties of the launcher contract proved about it.

    The script talks to things it does not define: the import system (is
    [mqtt_mcp.server] there?), the server class it imports, the process it
    runs in ([__name__], [sys.argv], [os.environ], [sys.stdout] and
    [sys.stderr] and the streams behind them) and the asyncio event loop.
    They are gathered in a [world]; the script is a computation in a small
    monad that logs what the script does to the [mqtt_mcp] package and to the
    output streams, and threads Python's three ways of leaving a call:
    returning, raising, never returning. *)

From Stdlib Require Import ZArith List String Bool Lia.
Import ListNotations.
Local Open Scope string_scope.
Local Open Scope list_scope.

(** ** The fragment of Python the script uses *)

Module Py.

(** Values the script passes around. *)
Inductive value : Type :=
| VNone
| VInt (z : Z)
| VStr (s : string).

Definition kwargs : Type := list (string * value).

(** Object identity of a server instance. *)
Definition obj : Type := nat.

(** An exception: its class followed by the class's ancestors, and the
    [code] attribute that [SystemExit] carries ([VNone] on the others). *)
Record exn : Type := mkExn { mro : list string; code : value }.

Definition isinstance (e : exn) (cls : string) : bool :=
  existsb (String.eqb cls) (mro e).

(** [type(e) is cls]: the class itself, no subclass. *)
Definition type_is (e : exn) (cls : string) : bool :=
  match mro e with
  | c :: _ => c =? cls
  | [] => false
  end.

Definition SystemExit (c : value) : exn :=
  mkExn ["SystemExit"; "BaseException"] c.

Definition ImportError : exn :=
  mkExn ["ImportError"; "Exception"; "BaseException"] VNone.

Definition ModuleNotFoundError : exn :=
  mkExn ["ModuleNotFoundError"; "ImportError"; "Exception"; "BaseException"] VNone.

Definition RuntimeError : exn :=
  mkExn ["RuntimeError"; "Exception"; "BaseException"] VNone.

Definition SyntaxError : exn :=
  mkExn ["SyntaxError"; "Exception"; "BaseException"] VNone.

Definition StopIteration : exn :=
  mkExn ["StopIteration"; "Exception"; "BaseException"] VNone.

Definition KeyboardInterrupt : exn :=
  mkExn ["KeyboardInterrupt"; "BaseException"] VNone.

Definition CancelledError : exn :=
  mkExn ["CancelledError"; "BaseException"] VNone.

Definition OSError : exn :=
  mkExn ["OSError"; "Exception"; "BaseException"] VNone.

(** How a call ends. *)
Inductive result (A : Type) : Type :=
| Returns (a : A)
| Raises (e : exn)
| Hangs.
Arguments Returns {A} a.
Arguments Raises {A} e.
Arguments Hangs {A}.

(** The two output streams of the process, file descriptors 1 and 2. *)
Inductive stream : Type := stdout | stderr.

(** The standard streams as the interpreter set them up: what [sys.stdout]
    and [sys.stderr] are bound to ([None] when the descriptor was closed at
    start-up), how a write to a stream ends, and whether the streams flush
    when the interpreter shuts down. *)
Record stdio : Type := {
  sys_stdout : option stream;
  sys_stderr : option stream;
  write : stream -> string -> result unit;
  flush_at_exit : bool
}.

(** The event loop [asyncio.run] drives: whether its SIGINT handler
    cancelled the main task (and nothing else did), and how closing the loop
    ends once the task is over (cancelling what is left, shutting down
    asynchronous generators and the executor). *)
Record event_loop : Type := {
  interrupted : bool;
  close : result unit
}.

(** What the script does to its surroundings, in program order: its
    dealings with the [mqtt_mcp] package and with the output streams.  The
    imports of the standard library (lines 6-8) are not logged. *)
Inductive event : Type :=
| EvImport (modname name : string)
    (* from modname import name *)
| EvPrint (file : stream) (text : string)
    (* print(text, ...) writing text to the stream file *)
| EvInit (args : list value) (kw : kwargs)
    (* the constructor call MQTTMCP(...) *)
| EvRunAsync (self : obj) (args : list value) (kw : kwargs).
    (* the method call self.run_async(...) *)

Definition log : Type := list event.

(** Computations: the log so far goes in, the outcome and the log come out. *)
Definition M (A : Type) : Type := log -> result A * log.

Definition ret {A} (a : A) : M A := fun l => (Returns a, l).

Definition bind {A B} (m : M A) (k : A -> M B) : M B :=
  fun l =>
    match m l with
    | (Returns a, l') => k a l'
    | (Raises e, l') => (Raises e, l')
    | (Hangs, l') => (Hangs, l')
    end.

Definition raise {A} (e : exn) : M A := fun l => (Raises e, l).

(** [try: body / except cls: handler]: the handler runs only for an
    instance of [cls]; any other exception goes on unchanged. *)
Definition try_except {A} (body : M A) (cls : string) (handler : M A) : M A :=
  fun l =>
    match body l with
    | (Raises e, l') => if isinstance e cls then handler l' else (Raises e, l')
    | r => r
    end.

(** An action on the surroundings: logged, its outcome given by them. *)
Definition extern {A} (ev : event) (r : result A) : M A :=
  fun l => (r, l ++ [ev]).

(** [print(text, file=file)]: a [file] that is [None] stands for
    [sys.stdout], and when that is [None] too nothing is written.  The write
    may fail: whatever it raises comes out of [print]. *)
Definition print (io : stdio) (text : string) (file : option stream) : M unit :=
  match (match file with Some f => Some f | None => sys_stdout io end) with
  | Some f => extern (EvPrint f text) (write io f text)
  | None => ret tt
  end.

(** [sys.exit(c)] raises [SystemExit(c)]. *)
Definition sys_exit {A} (c : Z) : M A := raise (SystemExit (VInt c)).

(** A coroutine is a suspended computation. *)
Definition coroutine (A : Type) : Type := M A.

(** What leaves the frame of a coroutine whose body raised [e]: a
    [StopIteration] is replaced by a [RuntimeError]. *)
Definition out_of_coroutine (e : exn) : exn :=
  if isinstance e "StopIteration" then RuntimeError else e.

(** [async def]: the body, run inside a coroutine frame. *)
Definition async_def {A} (body : M A) : coroutine A :=
  fun l =>
    match body l with
    | (Raises e, l') => (Raises (out_of_coroutine e), l')
    | r => r
    end.

(** [await c], for a [c] given by how the awaited call ends as seen from the
    awaiting frame. *)
Definition await {A} (c : coroutine A) : M A := c.

(** What [asyncio.run] raises when its task ended with [e]: a cancellation
    requested by the SIGINT handler comes out as [KeyboardInterrupt]. *)
Definition out_of_task (lp : event_loop) (e : exn) : exn :=
  if isinstance e "CancelledError" && interrupted lp
  then KeyboardInterrupt
  else e.

(** Closing the loop on the way out of [asyncio.run]: an exception raised
    there takes the place of the task's result. *)
Definition closing {A} (lp : event_loop) (r : result A) : result A :=
  match close lp with
  | Returns _ => r
  | Raises e => Raises e
  | Hangs => Hangs
  end.

(** [asyncio.run(c)], called where no event loop is running yet (the module
    level of the main program), creating the loop taken to succeed: the
    coroutine is driven to its end as the one task of a new loop, then the
    loop is closed. *)
Definition asyncio_run {A} (lp : event_loop) (c : coroutine A) : M A :=
  fun l =>
    match c l with
    | (Returns a, l') => (closing lp (Returns a), l')
    | (Raises e, l') => (closing lp (Raises (out_of_task lp e)), l')
    | (Hangs, l') => (Hangs, l')
    end.

(** How the process of a main program ends. *)
Inductive termination : Type :=
| Exited (status : Z)
| Killed (signal : Z)
| NeverEnds.

Definition SIGINT : Z := 2.

(** The exit status the interpreter takes from the [code] of a
    [SystemExit] (POSIX, 64-bit [long]): 0 for [None]; the low byte of an
    integer that fits a C [long], 255 of one that does not; 1 for anything
    else, which is printed. *)
Definition status_of_code (c : value) : Z :=
  match c with
  | VNone => 0
  | VInt n =>
      if (- 2 ^ 63 <=? n)%Z && (n <? 2 ^ 63)%Z then (n mod 256)%Z else 255
  | VStr _ => 1
  end.

(** The interpreter's end of a main program whose module body ended with
    [r].  An uncaught [KeyboardInterrupt] (the class itself) makes the
    process kill itself with SIGINT.  Otherwise the status is 0 after the
    last statement, the code of an uncaught [SystemExit], 1 for any other
    uncaught exception, and 120 in their place when the standard streams
    fail to flush at shutdown. *)
Definition interpreter_end {A} (flush_ok : bool) (r : result A) : termination :=
  match r with
  | Hangs => NeverEnds
  | Returns _ => Exited (if flush_ok then 0 else 120)
  | Raises e =>
      if isinstance e "SystemExit" then
        Exited (if flush_ok then status_of_code (code e) else 120)
      else if type_is e "KeyboardInterrupt" then Killed SIGINT
      else Exited (if flush_ok then 1 else 120)
  end.

Definition status_of (t : termination) : option Z :=
  match t with
  | Exited s => Some s
  | Killed _ | NeverEnds => None
  end.

End Py.

Import Py.

Declare Scope py_scope.
Delimit Scope py_scope with py.
Notation "x <- m ;; k" := (bind m (fun x => k))
  (at level 61, m at next level, right associativity) : py_scope.
Notation "m ;; k" := (bind m (fun _ => k))
  (at level 61, right associativity) : py_scope.
Local Open Scope py_scope.

(** ** The surroundings *)

(** What [from mqtt_mcp.server import MQTTMCP] binds: a class, which is
    whatever its constructor and its [run_async] method do when called.
    [run_async self args kw] is how [await self.run_async(...)] ends as seen
    from the frame of [main]. *)
Record server_class : Type := {
  init : list value -> kwargs -> result obj;
  run_async : obj -> list value -> kwargs -> result value
}.

Record world : Type := {
  argv : list string;                      (* sys.argv *)
  environ : list (string * string);        (* os.environ *)
  dunder_name : string;                    (* __name__ *)
  mqtt_mcp_server : result server_class;   (* outcome of the import *)
  io : stdio;                              (* the standard streams *)
  loop : event_loop                        (* the loop of asyncio.run *)
}.

(** ** The script *)

Section Script.

Variable w : world.

Definition DIAGNOSTIC : string :=
  "Error: mqtt-mcp not found. Install with: uv pip install mqtt-mcp".

(** Lines 10-14. *)
Definition import_MQTTMCP : M server_class :=
  try_except
    (extern (EvImport "mqtt_mcp.server" "MQTTMCP") (mqtt_mcp_server w))
    "ImportError"
    (print (io w) DIAGNOSTIC (sys_stderr (io w)) ;; sys_exit 1).

(** Lines 16-18. *)
Definition main (MQTTMCP : server_class) : coroutine value :=
  async_def
    (server <- extern (EvInit [] []) (init MQTTMCP [] []) ;;
     let transport := [("transport", VStr "stdio")] in
     await (extern (EvRunAsync server [] transport)
                   (run_async MQTTMCP server [] transport)) ;;
     ret VNone).

(** The module body, top to bottom.  The three standard-library imports of
    lines 6-8 bind [asyncio], [os] and [sys]; they are not logged. *)
Definition script : M unit :=
  MQTTMCP <- import_MQTTMCP ;;
  if dunder_name w =? "__main__"
  then asyncio_run (loop w) (main MQTTMCP) ;; ret tt
  else ret tt.

Definition run : result unit * log := script [].
Definition outcome : result unit := fst run.
Definition trace : log := snd run.

(** How the process ends when the file is its main program. *)
Definition termination_of : termination :=
  interpreter_end (flush_at_exit (io w)) outcome.

Definition exit_status : option Z := status_of termination_of.

End Script.

(** ** Vocabulary of the launcher contract *)

Definition import_ev : event := EvImport "mqtt_mcp.server" "MQTTMCP".

(** The keyword arguments of the one [run_async] call in the source. *)
Definition stdio_kw : kwargs := [("transport", VStr "stdio")].

Definition is_import (ev : event) : bool :=
  match ev with EvImport _ _ => true | _ => false end.

Definition is_init (ev : event) : bool :=
  match ev with EvInit _ _ => true | _ => false end.

Definition is_run_async (ev : event) : bool :=
  match ev with EvRunAsync _ _ _ => true | _ => false end.

Definition is_print (ev : event) : bool :=
  match ev with EvPrint _ _ => true | _ => false end.

Definition stream_eqb (f g : stream) : bool :=
  match f, g with
  | stdout, stdout | stderr, stderr => true
  | _, _ => false
  end.

Definition prints_to (f : stream) (ev : event) : bool :=
  match ev with EvPrint g _ => stream_eqb f g | _ => false end.

Definition count (p : event -> bool) (l : log) : nat := List.length (filter p l).

(** [contains needle hay]: [needle] occurs in [hay]. *)
Fixpoint contains (needle hay : string) : bool :=
  String.prefix needle hay
  || match hay with
     | EmptyString => false
     | String _ rest => contains needle rest
     end.

Definition is_main (w : world) : bool := dunder_name w =? "__main__".

(** The stream a [print(..., file=sys.stderr)] writes to, if any. *)
Definition print_target (s : stdio) : option stream :=
  match sys_stderr s with
  | Some f => Some f
  | None => sys_stdout s
  end.

(** The diagnostic goes out: there is no stream to write it to, or the
    write returns. *)
Definition print_returns (w : world) : Prop :=
  print_target (io w) = None
  \/ exists f, print_target (io w) = Some f
               /\ write (io w) f DIAGNOSTIC = Returns tt.

(** What every [run_async] call in a log must look like: no positional
    argument, and the single keyword argument [transport="stdio"]. *)
Definition transport_is_stdio (ev : event) : Prop :=
  match ev with
  | EvRunAsync _ args kw => args = [] /\ kw = [("transport", VStr "stdio")]
  | _ => True
  end.

Definition init_without_arguments (ev : event) : Prop :=
  match ev with
  | EvInit args kw => args = [] /\ kw = []
  | _ => True
  end.

(** What every print in a log of [w] must look like: the diagnostic, on the
    stream that [sys.stderr] stands for. *)
Definition only_the_diagnostic (w : world) (ev : event) : Prop :=
  match ev with
  | EvPrint f text => text = DIAGNOSTIC /\ print_target (io w) = Some f
  | _ => True
  end.

(** The server implementation cannot be loaded: the import raises an
    [ImportError] (or a subclass, such as [ModuleNotFoundError]). *)
Definition dependency_missing (w : world) : Prop :=
  exists e, mqtt_mcp_server w = Raises e /\ isinstance e "ImportError" = true.

(** The run loop shuts down cleanly: the class loads, the zero-argument
    constructor yields an instance and its [run_async] returns. *)
Definition clean_shutdown (w : world) : Prop :=
  exists cls h v,
    mqtt_mcp_server w = Returns cls /\
    init cls [] [] = Returns h /\
    run_async cls h [] stdio_kw = Returns v.

(** The body of [main] comes to an end, by returning or by raising. *)
Definition main_ends (w : world) : Prop :=
  exists cls,
    mqtt_mcp_server w = Returns cls /\
    ((exists e, init cls [] [] = Raises e)
     \/ exists h, init cls [] [] = Returns h
                  /\ run_async cls h [] stdio_kw <> Hangs).

(** In a main-program run, [e] reaches the top of the module uncaught: it
    comes from the import (anything but an [ImportError]), from printing the
    diagnostic, from the constructor or the run loop (as it leaves the
    coroutine and the task, the event loop closing behind it), or from
    closing the event loop. *)
Inductive escapes (w : world) : exn -> Prop :=
| escapes_import e :
    mqtt_mcp_server w = Raises e ->
    isinstance e "ImportError" = false ->
    escapes w e
| escapes_print f e :
    dependency_missing w ->
    print_target (io w) = Some f ->
    write (io w) f DIAGNOSTIC = Raises e ->
    escapes w e
| escapes_init cls e :
    mqtt_mcp_server w = Returns cls ->
    init cls [] [] = Raises e ->
    close (loop w) = Returns tt ->
    escapes w (out_of_task (loop w) (out_of_coroutine e))
| escapes_run cls h e :
    mqtt_mcp_server w = Returns cls ->
    init cls [] [] = Returns h ->
    run_async cls h [] stdio_kw = Raises e ->
    close (loop w) = Returns tt ->
    escapes w (out_of_task (loop w) (out_of_coroutine e))
| escapes_close e :
    main_ends w ->
    close (loop w) = Raises e ->
    escapes w e.

(** Every way the module body can go, by what the surroundings answer. *)
Inductive ending (w : world) : result unit -> log -> Prop :=
| end_missing_silent e :
    mqtt_mcp_server w = Raises e ->
    isinstance e "ImportError" = true ->
    print_target (io w) = None ->
    ending w (Raises (SystemExit (VInt 1))) [import_ev]
| end_missing e f :
    mqtt_mcp_server w = Raises e ->
    isinstance e "ImportError" = true ->
    print_target (io w) = Some f ->
    write (io w) f DIAGNOSTIC = Returns tt ->
    ending w (Raises (SystemExit (VInt 1))) [import_ev; EvPrint f DIAGNOSTIC]
| end_missing_print_raises e f e' :
    mqtt_mcp_server w = Raises e ->
    isinstance e "ImportError" = true ->
    print_target (io w) = Some f ->
    write (io w) f DIAGNOSTIC = Raises e' ->
    ending w (Raises e') [import_ev; EvPrint f DIAGNOSTIC]
| end_missing_print_hangs e f :
    mqtt_mcp_server w = Raises e ->
    isinstance e "ImportError" = true ->
    print_target (io w) = Some f ->
    write (io w) f DIAGNOSTIC = Hangs ->
    ending w Hangs [import_ev; EvPrint f DIAGNOSTIC]
| end_import_raises e :
    mqtt_mcp_server w = Raises e ->
    isinstance e "ImportError" = false ->
    ending w (Raises e) [import_ev]
| end_import_hangs :
    mqtt_mcp_server w = Hangs ->
    ending w Hangs [import_ev]
| end_imported cls :
    mqtt_mcp_server w = Returns cls ->
    is_main w = false ->
    ending w (Returns tt) [import_ev]
| end_init_raises cls e :
    mqtt_mcp_server w = Returns cls ->
    is_main w = true ->
    init cls [] [] = Raises e ->
    ending w (closing (loop w) (Raises (out_of_task (loop w) (out_of_coroutine e))))
             [import_ev; EvInit [] []]
| end_init_hangs cls :
    mqtt_mcp_server w = Returns cls ->
    is_main w = true ->
    init cls [] [] = Hangs ->
    ending w Hangs [import_ev; EvInit [] []]
| end_clean cls h v :
    mqtt_mcp_server w = Returns cls ->
    is_main w = true ->
    init cls [] [] = Returns h ->
    run_async cls h [] stdio_kw = Returns v ->
    ending w (closing (loop w) (Returns tt))
             [import_ev; EvInit [] []; EvRunAsync h [] stdio_kw]
| end_run_raises cls h e :
    mqtt_mcp_server w = Returns cls ->
    is_main w = true ->
    init cls [] [] = Returns h ->
    run_async cls h [] stdio_kw = Raises e ->
    ending w (closing (loop w) (Raises (out_of_task (loop w) (out_of_coroutine e))))
             [import_ev; EvInit [] []; EvRunAsync h [] stdio_kw]
| end_run_hangs cls h :
    mqtt_mcp_server w = Returns cls ->
    is_main w = true ->
    init cls [] [] = Returns h ->
    run_async cls h [] stdio_kw = Hangs ->
    ending w Hangs [import_ev; EvInit [] []; EvRunAsync h [] stdio_kw].

(** The exit codes as the contract words them: 0 exactly on a clean
    shutdown, 1 exactly on a missing dependency. *)
Definition exit_codes_as_worded (w : world) : Prop :=
  (exit_status w = Some 0%Z <-> clean_shutdown w) /\
  (exit_status w = Some 1%Z <-> dependency_missing w).

(** No [SystemExit] comes out of the surroundings: whatever escapes is an
    exception of another class. *)
Definition no_exit_from_server (w : world) : Prop :=
  forall e, escapes w e -> isinstance e "SystemExit" = false.

(** ** Sample surroundings *)

Definition TypeError : exn :=
  mkExn ["TypeError"; "Exception"; "BaseException"] VNone.

(** A test double of the server: constructible with no arguments only, any
    [run_async] call ends as [loop] says. *)
Definition double (loop : result value) : server_class :=
  {| init := fun args kw =>
       match args, kw with
       | [], [] => Returns 7%nat
       | _, _ => Raises TypeError
       end;
     run_async := fun _ _ _ => loop |}.

(** A server whose constructor fails. *)
Definition unconfigured : server_class :=
  {| init := fun _ _ => Raises RuntimeError;
     run_async := fun _ _ _ => Returns VNone |}.

(** A server whose constructor prints its usage and calls [sys.exit(0)]. *)
Definition usage_only : server_class :=
  {| init := fun _ _ => Raises (SystemExit (VInt 0));
     run_async := fun _ _ _ => Returns VNone |}.

(** Both standard streams open and working. *)
Definition console : stdio :=
  {| sys_stdout := Some stdout;
     sys_stderr := Some stderr;
     write := fun _ _ => Returns tt;
     flush_at_exit := true |}.

(** Started with descriptor 2 closed: [sys.stderr] is [None]. *)
Definition stderr_closed : stdio :=
  {| sys_stdout := Some stdout;
     sys_stderr := None;
     write := fun _ _ => Returns tt;
     flush_at_exit := true |}.

(** Standard error on a full device: writes to it fail, and so does the
    flush at shutdown. *)
Definition stderr_full : stdio :=
  {| sys_stdout := Some stdout;
     sys_stderr := Some stderr;
     write := fun f _ =>
       match f with stderr => Raises OSError | stdout => Returns tt end;
     flush_at_exit := false |}.

(** No signal arrives and the loop closes without trouble. *)
Definition quiet : event_loop :=
  {| interrupted := false; close := Returns tt |}.

Definition as_script (dep : result server_class) : world :=
  {| argv := ["mqtt-mcp-stdio.py"];
     environ := [];
     dunder_name := "__main__";
     mqtt_mcp_server := dep;
     io := console;
     loop := quiet |}.

Definition w_returns : world := as_script (Returns (double (Returns VNone))).
Definition w_serving : world := as_script (Returns (double Hangs)).
Definition w_crash : world := as_script (Returns (double (Raises RuntimeError))).
Definition w_crash_importerror : world :=
  as_script (Returns (double (Raises ImportError))).
Definition w_stop : world := as_script (Returns (double (Raises StopIteration))).
Definition w_unconfigured : world := as_script (Returns unconfigured).
Definition w_usage : world := as_script (Returns usage_only).
Definition w_absent : world := as_script (Raises ModuleNotFoundError).
Definition w_broken : world := as_script (Raises SyntaxError).

(** The dependency missing, descriptor 2 closed. *)
Definition w_absent_stderr_closed : world :=
  {| argv := ["mqtt-mcp-stdio.py"];
     environ := [];
     dunder_name := "__main__";
     mqtt_mcp_server := Raises ModuleNotFoundError;
     io := stderr_closed;
     loop := quiet |}.

(** The dependency missing, standard error on a full device. *)
Definition w_absent_stderr_full : world :=
  {| argv := ["mqtt-mcp-stdio.py"];
     environ := [];
     dunder_name := "__main__";
     mqtt_mcp_server := Raises ModuleNotFoundError;
     io := stderr_full;
     loop := quiet |}.

(** The same process started with arguments and a populated environment. *)
Definition w_returns_args : world :=
  {| argv := ["mqtt-mcp-stdio.py"; "--transport"; "http"; "--port"; "8080"];
     environ := [("MQTT_HOST", "broker.local"); ("TRANSPORT", "http")];
     dunder_name := "__main__";
     mqtt_mcp_server := Returns (double (Returns VNone));
     io := console;
     loop := quiet |}.

(** The file loaded by another program under some module name. *)
Definition w_imported : world :=
  {| argv := ["harness.py"];
     environ := [];
     dunder_name := "mqtt_mcp_stdio";
     mqtt_mcp_server := Returns (double (Returns VNone));
     io := console;
     loop := quiet |}.

(** A server whose run loop ends the process itself, with [sys.exit(3)]. *)
Definition w_server_exits : world :=
  as_script (Returns (double (Raises (SystemExit (VInt 3))))).

(** ** Running the script *)

Ltac step_script :=
  cbv [run outcome trace script import_MQTTMCP main asyncio_run async_def
       await try_except bind extern print sys_exit raise ret is_main
       print_target] in *;
  cbn [fst snd app] in *.

(** The two end-to-end scenarios of the contract, and some more. *)
Example scenario_A :
  run w_absent =
  (Raises (SystemExit (VInt 1)), [import_ev; EvPrint stderr DIAGNOSTIC]).
Proof. reflexivity. Qed.

Example scenario_B :
  run w_returns =
  (Returns tt, [import_ev; EvInit [] []; EvRunAsync 7%nat [] stdio_kw])
  /\ exit_status w_returns = Some 0%Z.
Proof. split; reflexivity. Qed.

Example scenario_serving :
  run w_serving = (Hangs, [import_ev; EvInit [] []; EvRunAsync 7%nat [] stdio_kw]).
Proof. reflexivity. Qed.

Example scenario_unconfigured :
  run w_unconfigured = (Raises RuntimeError, [import_ev; EvInit [] []]).
Proof. reflexivity. Qed.

Example scenario_imported : run w_imported = (Returns tt, [import_ev]).
Proof. reflexivity. Qed.

Example scenario_stderr_closed :
  run w_absent_stderr_closed =
  (Raises (SystemExit (VInt 1)), [import_ev; EvPrint stdout DIAGNOSTIC])
  /\ exit_status w_absent_stderr_closed = Some 1%Z.
Proof. split; reflexivity. Qed.

Example scenario_stderr_full :
  run w_absent_stderr_full =
  (Raises OSError, [import_ev; EvPrint stderr DIAGNOSTIC])
  /\ exit_status w_absent_stderr_full = Some 120%Z.
Proof. split; reflexivity. Qed.

Example scenario_ctrl_c :
  termination_of (as_script (Returns (double (Raises KeyboardInterrupt))))
  = Killed SIGINT.
Proof. reflexivity. Qed.

(** The script ends in one of the ways of [ending], whatever the
    surroundings do. *)
Lemma run_ending (w : world) : ending w (outcome w) (trace w).
Proof.
  step_script.
  destruct (mqtt_mcp_server w) as [cls | e | ] eqn:Himp; cbn [fst snd app].
  - destruct (dunder_name w =? "__main__") eqn:Hmain; cbn [fst snd app].
    + destruct (init cls [] []) as [h | e | ] eqn:Hinit; cbn [fst snd app].
      * destruct (run_async cls h [] [("transport", VStr "stdio")])
          as [v | e | ] eqn:Hloop; cbn [fst snd app].
        -- pose proof (end_clean w cls h v Himp Hmain Hinit Hloop) as E.
           unfold closing in *. now destruct (close (loop w)).
        -- pose proof (end_run_raises w cls h e Himp Hmain Hinit Hloop) as E.
           unfold closing in *. now destruct (close (loop w)).
        -- now apply (end_run_hangs w cls h).
      * pose proof (end_init_raises w cls e Himp Hmain Hinit) as E.
        unfold closing in *. now destruct (close (loop w)).
      * now apply (end_init_hangs w cls).
    + now apply (end_imported w cls).
  - destruct (isinstance e "ImportError") eqn:Hcls; cbn [fst snd app].
    + destruct (sys_stderr (io w)) as [f | ] eqn:Herr.
      * destruct (write (io w) f DIAGNOSTIC) as [[] | e' | ] eqn:Hwrite;
          cbn [fst snd app].
        -- apply (end_missing w e f); auto. unfold print_target. now rewrite Herr.
        -- apply (end_missing_print_raises w e f e'); auto.
           unfold print_target. now rewrite Herr.
        -- apply (end_missing_print_hangs w e f); auto.
           unfold print_target. now rewrite Herr.
      * destruct (sys_stdout (io w)) as [f | ] eqn:Hout.
        -- destruct (write (io w) f DIAGNOSTIC) as [[] | e' | ] eqn:Hwrite;
             cbn [fst snd app].
           ++ apply (end_missing w e f); auto.
              unfold print_target. now rewrite Herr.
           ++ apply (end_missing_print_raises w e f e'); auto.
              unfold print_target. now rewrite Herr.
           ++ apply (end_missing_print_hangs w e f); auto.
              unfold print_target. now rewrite Herr.
        -- cbn [fst snd app]. apply (end_missing_silent w e); auto.
           unfold print_target. now rewrite Herr.
    + now apply (end_import_raises w e).
  - now apply end_import_hangs.
Qed.

Lemma is_main_true (w : world) : is_main w = true <-> dunder_name w = "__main__".
Proof. unfold is_main. apply String.eqb_eq. Qed.

Lemma is_main_false (w : world) : is_main w = false <-> dunder_name w <> "__main__".
Proof. unfold is_main. apply String.eqb_neq. Qed.

(** Case analysis on how the script ended; the cases that contradict what
    is known of the surroundings are closed on the way. *)
Ltac by_ending w :=
  let E := fresh "E" in
  unfold exit_status, termination_of in *;
  pose proof (run_ending w) as E;
  repeat match goal with
         | H : dunder_name w = "__main__" |- _ => apply is_main_true in H
         | H : dunder_name w <> "__main__" |- _ => apply is_main_false in H
         end;
  destruct E; try congruence.

(** Two answers to the same question are the same answer. *)
Ltac agree :=
  repeat match goal with
         | H1 : ?q = _, H2 : ?q = _ |- _ =>
             rewrite H1 in H2;
             first [ injection H2 as ?; subst | clear H2 ]
         end.

(** Use what is known of how the event loop closes. *)
Ltac settle :=
  unfold closing in *;
  repeat match goal with
         | H : close _ = _ |- _ => rewrite H
         | H : flush_at_exit _ = _ |- _ => rewrite H
         end.

Create HintDb launcher.
#[local] Hint Constructors Forall escapes : launcher.
#[local] Hint Unfold clean_shutdown dependency_missing : launcher.

Lemma transport_always_stdio (w : world) : Forall transport_is_stdio (trace w).
Proof.
  destruct (run_ending w); repeat constructor.
Qed.

Lemma handler_ran_only_if_missing (w : world) :
  (0 < count is_print (trace w))%nat -> dependency_missing w.
Proof.
  intros Hprinted. destruct (run_ending w); cbn in Hprinted; try lia;
    eauto with launcher.
Qed.

(** An exception that is no [StopIteration] leaves the coroutine as it is,
    and one that is no cancellation on SIGINT leaves the task as it is. *)
Lemma out_of_coroutine_other (e : exn) :
  isinstance e "StopIteration" = false -> out_of_coroutine e = e.
Proof. unfold out_of_coroutine. now intros ->. Qed.

Lemma out_of_coroutine_stop (e : exn) :
  isinstance e "StopIteration" = true -> out_of_coroutine e = RuntimeError.
Proof. unfold out_of_coroutine. now intros ->. Qed.

Lemma out_of_task_other (lp : event_loop) (e : exn) :
  isinstance e "CancelledError" && interrupted lp = false ->
  out_of_task lp e = e.
Proof. unfold out_of_task. now intros ->. Qed.

(** An escaping exception is what a main-program run ends with. *)
Lemma escapes_outcome (w : world) (e : exn) :
  dunder_name w = "__main__" -> escapes w e -> outcome w = Raises e.
Proof.
  intros Hmain
    [ e0 Himp Hcls
    | f e0 (e1 & Himp & Hcls) Htarget Hwrite
    | cls e0 Himp Hinit Hclose
    | cls h e0 Himp Hinit Hloop Hclose
    | e0 (cls & Himp & [(e1 & Hinit) | (h & Hinit & Hloop)]) Hclose ];
    by_ending w; agree; settle; reflexivity.
Qed.

(** The interpreter's verdict on an uncaught exception, streams flushing. *)
Lemma uncaught_exit (w : world) (e : exn) :
  flush_at_exit (io w) = true ->
  outcome w = Raises e ->
  (isinstance e "SystemExit" = true ->
     exit_status w = Some (status_of_code (code e)))
  /\ (isinstance e "SystemExit" = false ->
      type_is e "KeyboardInterrupt" = true ->
      termination_of w = Killed SIGINT)
  /\ (isinstance e "SystemExit" = false ->
      type_is e "KeyboardInterrupt" = false ->
      exit_status w = Some 1%Z).
Proof.
  intros Hflush Hout. unfold exit_status, termination_of.
  rewrite Hout, Hflush. cbn.
  repeat split; intros; repeat match goal with H : _ = _ |- _ => rewrite H end;
    reflexivity.
Qed.

(** Every execution of the main program that ends with an exit status is
    a clean shutdown followed by the closing of the event loop, a missing
    dependency whose diagnostic went out, or an escaping exception. *)
Lemma exits_classified (w : world) (s : Z) :
  dunder_name w = "__main__" ->
  exit_status w = Some s ->
  (clean_shutdown w /\ close (loop w) = Returns tt /\ outcome w = Returns tt)
  \/ (dependency_missing w /\ print_returns w
      /\ outcome w = Raises (SystemExit (VInt 1)))
  \/ exists e, escapes w e.
Proof.
  intros Hmain Hs.
  apply is_main_true in Hmain.
  unfold exit_status, termination_of in Hs.
  destruct (run_ending w) as
    [ e ? ? ? | e f ? ? ? ? | e f e' ? ? ? ? | e f ? ? ? ?
    | e ? ? | ? | cls ? ? | cls e ? ? Hinit | cls ? ? ?
    | cls h v ? ? ? ? | cls h e ? ? Hinit Hloop | cls h ? ? ? ? ];
    try discriminate Hs; try congruence.
  - right; left. split; [ | split ].
    + now exists e.
    + now left.
    + reflexivity.
  - right; left. split; [ | split ].
    + now exists e.
    + right. now exists f.
    + reflexivity.
  - right; right. exists e'. apply (escapes_print w f e'); auto.
    now exists e.
  - right; right. exists e. now apply escapes_import.
  - right; right. unfold closing in Hs.
    destruct (close (loop w)) as [[] | e' | ] eqn:Hclose;
      try discriminate Hs.
    + eexists. now apply (escapes_init w cls e).
    + exists e'. apply escapes_close; [ | assumption ].
      exists cls. split; [ assumption | left; now exists e ].
  - unfold closing in *.
    destruct (close (loop w)) as [[] | e' | ] eqn:Hclose;
      try discriminate Hs.
    + left. split; [ now exists cls, h, v | split; reflexivity ].
    + right; right. exists e'. apply escapes_close; [ | assumption ].
      exists cls. split; [ assumption | right; exists h ].
      split; [ assumption | congruence ].
  - right; right. unfold closing in Hs.
    destruct (close (loop w)) as [[] | e' | ] eqn:Hclose;
      try discriminate Hs.
    + eexists. now apply (escapes_run w cls h e).
    + exists e'. apply escapes_close; [ | assumption ].
      exists cls. split; [ assumption | right; exists h ].
      split; [ assumption | congruence ].
Qed.

(** ** The launcher contract *)

(** C1.  With the server implementation importable, the script run as the
    main program and the constructor returning an instance, the script's
    actions are the import, one construction and one [run_async] call on
    that instance: the constructor is called exactly once, [run_async]
    exactly once.  And in every execution whatsoever, each [run_async] call
    carries [transport="stdio"] and no other argument. *)
Theorem constructs_once_and_runs_once_over_stdio
    (w : world) (cls : server_class) (h : obj) :
  mqtt_mcp_server w = Returns cls ->
  dunder_name w = "__main__" ->
  init cls [] [] = Returns h ->
  count is_init (trace w) = 1%nat
  /\ count is_run_async (trace w) = 1%nat
  /\ trace w = [import_ev; EvInit [] []; EvRunAsync h [] [("transport", VStr "stdio")]]
  /\ forall w' : world, Forall transport_is_stdio (trace w').
Proof.
  intros Himp Hmain Hinit.
  assert (Htrace : trace w = [import_ev; EvInit [] []; EvRunAsync h [] stdio_kw]).
  { by_ending w; agree; reflexivity. }
  rewrite Htrace. repeat split; auto using transport_always_stdio.
Qed.

Lemma constructs_once_and_runs_once_over_stdio_witness :
  count is_init (trace w_serving) = 1%nat
  /\ count is_run_async (trace w_serving) = 1%nat
  /\ trace w_serving
     = [import_ev; EvInit [] []; EvRunAsync 7%nat [] [("transport", VStr "stdio")]]
  /\ forall w' : world, Forall transport_is_stdio (trace w').
Proof.
  apply (constructs_once_and_runs_once_over_stdio
           w_serving (double Hangs) 7%nat); reflexivity.
Defined.

(** C2, as worded, fails.  Started with descriptor 2 closed, [sys.stderr] is
    [None] and the diagnostic is written to standard output, not to the
    error stream.  With the error stream on a full device the write raises,
    [sys.exit(1)] is not reached, and the process ends with status 120. *)
Lemma diagnostic_misses_the_error_stream :
  (dependency_missing w_absent_stderr_closed
   /\ trace w_absent_stderr_closed = [import_ev; EvPrint stdout DIAGNOSTIC]
   /\ count (prints_to stderr) (trace w_absent_stderr_closed) = 0%nat)
  /\ (dependency_missing w_absent_stderr_full
      /\ outcome w_absent_stderr_full = Raises OSError
      /\ exit_status w_absent_stderr_full = Some 120%Z).
Proof.
  assert (Hmissing : forall s l,
             dependency_missing
               {| argv := ["mqtt-mcp-stdio.py"]; environ := [];
                  dunder_name := "__main__";
                  mqtt_mcp_server := Raises ModuleNotFoundError;
                  io := s; loop := l |}).
  { intros s l. exists ModuleNotFoundError. split; reflexivity. }
  repeat split; try reflexivity; apply Hmissing.
Qed.

(** C2, amended.  When the import raises an [ImportError], the script never
    calls the constructor or [run_async].  If moreover [sys.stderr] is the
    error stream and the write to it returns, the script prints the
    diagnostic there and leaves through [sys.exit(1)], which ends a main
    program whose streams flush at shutdown with exit code 1.  The
    diagnostic names the package and the command that installs it. *)
Theorem missing_dependency_diagnostic_and_exit_1 (w : world) :
  dependency_missing w ->
  count is_init (trace w) = 0%nat
  /\ count is_run_async (trace w) = 0%nat
  /\ (sys_stderr (io w) = Some stderr ->
      write (io w) stderr DIAGNOSTIC = Returns tt ->
      trace w = [import_ev; EvPrint stderr DIAGNOSTIC]
      /\ outcome w = Raises (SystemExit (VInt 1))
      /\ (dunder_name w = "__main__" ->
          flush_at_exit (io w) = true ->
          exit_status w = Some 1%Z))
  /\ contains "mqtt-mcp not found" DIAGNOSTIC = true
  /\ contains "uv pip install mqtt-mcp" DIAGNOSTIC = true.
Proof.
  intros (e & Himp & Hcls).
  split; [ by_ending w; reflexivity | ].
  split; [ by_ending w; reflexivity | ].
  split; [ | split; reflexivity ].
  intros Herr Hwrite.
  assert (Htarget : print_target (io w) = Some stderr).
  { unfold print_target. now rewrite Herr. }
  by_ending w; agree; try congruence.
  repeat split. intros _ Hflush. now rewrite Hflush.
Qed.

Lemma missing_dependency_diagnostic_and_exit_1_witness :
  count is_init (trace w_absent) = 0%nat
  /\ count is_run_async (trace w_absent) = 0%nat
  /\ trace w_absent = [import_ev; EvPrint stderr DIAGNOSTIC]
  /\ outcome w_absent = Raises (SystemExit (VInt 1))
  /\ exit_status w_absent = Some 1%Z.
Proof.
  assert (Hmissing : dependency_missing w_absent).
  { exists ModuleNotFoundError. split; reflexivity. }
  destruct (missing_dependency_diagnostic_and_exit_1 w_absent Hmissing)
    as (Hinit & Hrun & Hprinted & _).
  destruct (Hprinted eq_refl eq_refl) as (Htrace & Hout & Hstatus).
  exact (conj Hinit (conj Hrun (conj Htrace (conj Hout
           (Hstatus eq_refl eq_refl))))).
Defined.




(** C4.  Every constructor call the script makes, in every execution, has
    no positional and no keyword argument. *)
Theorem constructor_gets_no_arguments (w : world) :
  Forall init_without_arguments (trace w).
Proof.
  destruct (run_ending w); repeat constructor.
Qed.




(** C6.  Two processes in which the import has the same outcome, [__name__]
    is the same and the standard streams and the event loop behave alike run
    the script identically, whatever their command lines and environments
    hold: same actions in the same order (construction, run call,
    diagnostic), same outcome, same exit status. *)
Theorem independent_of_argv_and_environ (w1 w2 : world) :
  mqtt_mcp_server w1 = mqtt_mcp_server w2 ->
  dunder_name w1 = dunder_name w2 ->
  io w1 = io w2 ->
  loop w1 = loop w2 ->
  trace w1 = trace w2
  /\ outcome w1 = outcome w2
  /\ exit_status w1 = exit_status w2.
Proof.
  intros Himp Hname Hio Hloop.
  assert (Hrun : run w1 = run w2).
  { unfold run, script, import_MQTTMCP. now rewrite Himp, Hname, Hio, Hloop. }
  unfold exit_status, termination_of, trace, outcome. now rewrite Hrun, Hio.
Qed.

Lemma independent_of_argv_and_environ_witness :
  argv w_returns <> argv w_returns_args
  /\ environ w_returns <> environ w_returns_args
  /\ trace w_returns = trace w_returns_args
  /\ outcome w_returns = outcome w_returns_args
  /\ exit_status w_returns = exit_status w_returns_args.
Proof.
  split; [ discriminate | split; [ discriminate | ] ].
  apply (independent_of_argv_and_environ w_returns w_returns_args); reflexivity.
Defined.




(** C9.  An exception raised by the import that is not an [ImportError]
    passes the handler by: the script ends with that very exception, having
    done nothing but attempt the import; no diagnostic is printed and
    [sys.exit] is not reached. *)
Theorem other_import_errors_propagate (w : world) (e : exn) :
  mqtt_mcp_server w = Raises e ->
  isinstance e "ImportError" = false ->
  outcome w = Raises e
  /\ trace w = [import_ev]
  /\ count is_print (trace w) = 0%nat.
Proof.
  intros Himp Hcls. by_ending w; agree; repeat split; reflexivity.
Qed.

Lemma other_import_errors_propagate_witness :
  outcome w_broken = Raises SyntaxError
  /\ trace w_broken = [import_ev]
  /\ count is_print (trace w_broken) = 0%nat.
Proof.
  apply (other_import_errors_propagate w_broken SyntaxError); reflexivity.
Defined.

(** C10.  When [__name__] is not ["__main__"], the script neither constructs
    a server nor starts a run loop, whatever the import gave. *)
Theorem imported_as_module_does_nothing (w : world) :
  dunder_name w <> "__main__" ->
  count is_init (trace w) = 0%nat
  /\ count is_run_async (trace w) = 0%nat.
Proof.
  intros Hname. by_ending w; split; reflexivity.
Qed.

Lemma imported_as_module_does_nothing_witness :
  mqtt_mcp_server w_imported = Returns (double (Returns VNone))
  /\ count is_init (trace w_imported) = 0%nat
  /\ count is_run_async (trace w_imported) = 0%nat.
Proof.
  split; [ reflexivity | ].
  apply (imported_as_module_does_nothing w_imported). discriminate.
Defined.

(** ** Beyond the contract *)



(** While the run loop does not return, neither does the script: the run
    call is its last action and the process has no exit status. *)
Theorem serving_forever_never_exits (w : world) (cls : server_class) (h : obj) :
  mqtt_mcp_server w = Returns cls ->
  dunder_name w = "__main__" ->
  init cls [] [] = Returns h ->
  run_async cls h [] [("transport", VStr "stdio")] = Hangs ->
  outcome w = Hangs
  /\ exit_status w = None
  /\ trace w = [import_ev; EvInit [] []; EvRunAsync h [] stdio_kw].
Proof.
  intros Himp Hmain Hinit Hloop. fold stdio_kw in Hloop.
  by_ending w; agree; repeat split; reflexivity.
Qed.

Lemma serving_forever_never_exits_witness :
  outcome w_serving = Hangs
  /\ exit_status w_serving = None
  /\ trace w_serving = [import_ev; EvInit [] []; EvRunAsync 7%nat [] stdio_kw].
Proof.
  apply (serving_forever_never_exits w_serving (double Hangs) 7%nat);
    reflexivity.
Defined.

(** The dependency is resolved once and never retried: in every execution
    the script attempts the import of [MQTTMCP] from [mqtt_mcp.server]
    exactly once, and every print, constructor call and run call it makes
    comes after that attempt. *)
Theorem import_attempted_once_before_the_rest (w : world) :
  count is_import (trace w) = 1%nat
  /\ exists rest,
       trace w = EvImport "mqtt_mcp.server" "MQTTMCP" :: rest
       /\ count is_import rest = 0%nat.
Proof.
  destruct (run_ending w); (split; [ | eexists; split ]); reflexivity.
Qed.

(** Nothing is restarted: in every execution the constructor is called at
    most once, [run_async] never more often than the constructor, and an
    execution that printed the diagnostic called no constructor. *)
Theorem nothing_is_done_twice (w : world) :
  (count is_init (trace w) <= 1)%nat
  /\ (count is_run_async (trace w) <= count is_init (trace w))%nat
  /\ (count is_print (trace w) + count is_init (trace w) <= 1)%nat.
Proof.
  destruct (run_ending w); cbn; lia.
Qed.

(** A [run_async] call in the log tells the whole execution: the file ran
    as the main program, the import gave a class, its zero-argument
    constructor returned the very instance the call is made on, and the call
    is the third and last action, after the import and the construction. *)
Theorem run_call_only_on_the_constructed_instance
    (w : world) (self : obj) (args : list value) (kw : kwargs) :
  In (EvRunAsync self args kw) (trace w) ->
  dunder_name w = "__main__"
  /\ (exists cls,
        mqtt_mcp_server w = Returns cls /\ init cls [] [] = Returns self)
  /\ trace w = [import_ev; EvInit [] []; EvRunAsync self [] stdio_kw].
Proof.
  intros Hin.
  destruct (run_ending w);
    cbn in Hin;
    repeat match type of Hin with
           | _ \/ _ => destruct Hin as [Hin | Hin]
           | False => contradiction
           | _ = _ => first [ discriminate Hin | injection Hin as <- _ _ ]
           end;
    (split; [ now apply is_main_true | split; [ eauto | reflexivity ] ]).
Qed.

Lemma run_call_only_on_the_constructed_instance_witness :
  dunder_name w_serving = "__main__"
  /\ (exists cls,
        mqtt_mcp_server w_serving = Returns cls /\ init cls [] [] = Returns 7%nat)
  /\ trace w_serving = [import_ev; EvInit [] []; EvRunAsync 7%nat [] stdio_kw].
Proof.
  apply (run_call_only_on_the_constructed_instance w_serving 7%nat [] stdio_kw).
  cbn. right; right; left. reflexivity.
Defined.


Lemma w_crash_no_exit_from_server : no_exit_from_server w_crash.
Proof.
  intros e
    [ e0 Himp _
    | f e0 (e1 & Himp & _) _ _
    | cls e0 Himp Hinit _
    | cls h e0 Himp Hinit Hloop _
    | e0 _ Hclose ].
  - discriminate Himp.
  - discriminate Himp.
  - injection Himp as <-. discriminate Hinit.
  - injection Himp as <-. injection Hloop as <-. reflexivity.
  - discriminate Hclose.
Qed.


(** A [sys.exit(c)] inside the run loop is not turned into the launcher's
    own exit code.  The [SystemExit] passes through the coroutine and
    [asyncio.run] unchanged and nothing is printed; the event loop closing
    without trouble and the streams flushing at shutdown, a code [c] that
    fits a C [int] ends the process with status [c mod 256]. *)
Theorem server_exit_code_passes_through
    (w : world) (cls : server_class) (h : obj) (c : Z) :
  mqtt_mcp_server w = Returns cls ->
  dunder_name w = "__main__" ->
  init cls [] [] = Returns h ->
  run_async cls h [] [("transport", VStr "stdio")] = Raises (SystemExit (VInt c)) ->
  close (loop w) = Returns tt ->
  flush_at_exit (io w) = true ->
  (- 2 ^ 31 <= c < 2 ^ 31)%Z ->
  outcome w = Raises (SystemExit (VInt c))
  /\ exit_status w = Some (c mod 256)%Z
  /\ count is_print (trace w) = 0%nat.
Proof.
  intros Himp Hmain Hinit Hloop Hclose Hflush Hrange. fold stdio_kw in Hloop.
  assert (Hfits : ((- 2 ^ 63 <=? c) && (c <? 2 ^ 63) = true)%Z).
  { apply andb_true_intro. split; [ apply Z.leb_le | apply Z.ltb_lt ]; lia. }
  by_ending w; agree. settle.
  change (out_of_task (loop w) (out_of_coroutine (SystemExit (VInt c))))
    with (SystemExit (VInt c)).
  split; [ reflexivity | split; [ | reflexivity ] ].
  unfold interpreter_end.
  change (isinstance (SystemExit (VInt c)) "SystemExit") with true.
  unfold status_of, status_of_code. cbn [code SystemExit].
  now rewrite Hfits.
Qed.

Lemma server_exit_code_passes_through_witness :
  outcome w_server_exits = Raises (SystemExit (VInt 3))
  /\ exit_status w_server_exits = Some (3 mod 256)%Z
  /\ count is_print (trace w_server_exits) = 0%nat.
Proof.
  apply (server_exit_code_passes_through
           w_server_exits (double (Raises (SystemExit (VInt 3)))) 7%nat 3%Z);
    try reflexivity.
  split; [ discriminate | reflexivity ].
Defined.
